(** * monorepo-with-coverage: the test-runner configuration and the sample test

    The repository holds three pieces of TypeScript:

    - the root [vitest.config.ts], whose default export is the record passed
      to [defineConfig];
    - the configuration of the Vue sub-project, of the same shape;
    - a test file with one [describe] block of three [test]s, each a single
      [expect(sum(a, b)).toBe(e)].

    The configuration objects are embedded as JavaScript values (objects are
    property lists in insertion order), the test file as a computation in a
    small state-and-exception monad over the state of the test runner.  The
    test file is given twice: over the integers, which is enough for what
    the tests compute with an exact [sum], and over the numbers of
    JavaScript, the binary64 floats, on which [toBe] compares with
    [Object.is]. *)

From Stdlib Require Import Floats.
From Stdlib Require Import ZArith List String Ascii Bool Lia.
Import ListNotations.

Local Open Scope string_scope.
Local Open Scope Z_scope.

(** ** JavaScript values *)

Module Js.

(** The values that occur in the configuration files.  [VCall] is the result
    of calling a function imported from a package, kept symbolic: the callee
    is named by its module specifier. *)
#[local] Unset Elimination Schemes.
Inductive value : Type :=
| VBool (b : bool)
| VStr (s : string)
| VArr (items : list value)
| VObj (props : list (string * value))
| VCall (callee : string) (args : list value).
#[local] Set Elimination Schemes.

(** [o[k] = v] on the property list of an object: an existing key keeps its
    position and takes the new value, a new key goes last. *)
Fixpoint set_prop (k : string) (v : value) (props : list (string * value))
  : list (string * value) :=
  match props with
  | [] => [(k, v)]
  | (k', v') :: rest =>
      if String.eqb k k' then (k, v) :: rest
      else (k', v') :: set_prop k v rest
  end.

(** An object literal [{ k1: v1, ..., kn: vn }] defines its properties from
    left to right. *)
Definition object_literal (defs : list (string * value)) : value :=
  VObj (fold_left (fun acc kv => set_prop (fst kv) (snd kv) acc) defs []).

Fixpoint lookup (k : string) (props : list (string * value)) : option value :=
  match props with
  | [] => None
  | (k', v) :: rest => if String.eqb k k' then Some v else lookup k rest
  end.

(** [o.k]; [None] stands for [undefined]. *)
Definition get (k : string) (v : value) : option value :=
  match v with
  | VObj props => lookup k props
  | _ => None
  end.

(** [o.k1.k2...kn], with optional chaining. *)
Fixpoint get_path (path : list string) (v : value) : option value :=
  match path with
  | [] => Some v
  | k :: rest =>
      match get k v with
      | Some v' => get_path rest v'
      | None => None
      end
  end.

(** [Object.keys(o)]. *)
Definition keys (v : value) : list string :=
  match v with
  | VObj props => map fst props
  | _ => []
  end.

(** [k in o]. *)
Definition has (k : string) (v : value) : bool :=
  match get k v with
  | Some _ => true
  | None => false
  end.

End Js.

Import Js.

(** ** The environment a module is evaluated in *)

(** What a configuration module could read from outside itself: the directory
    of the file ([__dirname], which the sub-project configuration mentions in
    a line that is commented out) and the process environment. *)
Record host : Type := mkHost {
  dirname : string;
  env : list (string * string)
}.

(** ** Imports *)

(** [defineConfig] of [vitest/config]: a typing helper, it returns the
    configuration it is given. *)
Definition defineConfig (config : value) : value := config.

(** The default export of [@vitejs/plugin-vue], called without options. *)
Definition vue (options : list value) : value :=
  VCall "@vitejs/plugin-vue" options.

(** ** vitest.config.ts, root of the monorepo *)

Module RootConfig.

Definition default (h : host) : value :=
  defineConfig (object_literal [
    ("test", object_literal [
      ("projects", VArr [VStr "./my-vue-app"]);
      ("reporters", VArr [VStr "default"]);
      ("coverage", object_literal [
        ("provider", VStr "istanbul");
        ("reporter", VArr [VStr "text"; VStr "lcov"]);
        ("all", VBool true);
        ("reportsDirectory", VStr "./test-results")
      ])
    ])
  ]).

End RootConfig.

(** ** vitest.config.ts of the sub-project *)

Module ProjectConfig.

Definition default (h : host) : value :=
  defineConfig (object_literal [
    ("plugins", VArr [vue []]);
    ("test", object_literal [
      ("environment", VStr "jsdom");
      ("globals", VBool true);
      ("includeSource", VArr [VStr "src/**/*.{js,ts,vue}"]);
      ("coverage", object_literal [
        ("reportsDirectory", VStr "../test-results/ui")
      ])
    ])
  ]).

End ProjectConfig.

(** ** The test runner *)

(** What [expect(actual).toBe(expected)] throws when the two differ. *)
Inductive AssertionError : Type :=
| NotTheSame (actual expected : Z)
| NotSameValue (actual expected : float).

Inductive outcome : Type :=
| Passed
| Failed (e : AssertionError).

Definition is_failure (o : outcome) : bool :=
  match o with
  | Passed => false
  | Failed _ => true
  end.

(** One line of the runner's report: the enclosing [describe] blocks, the
    name of the test, and how it ended. *)
Record report : Type := mkReport {
  suite : list string;
  title : string;
  result : outcome
}.

(** The state of a run: the two configuration records as read at startup,
    the [describe] blocks currently open, and the report so far. *)
Record runner : Type := mkRunner {
  config : value;
  projectConfig : value;
  suites : list string;
  reports : list report
}.

(** How a JavaScript computation ends. *)
Inductive completion (A : Type) : Type :=
| Normal (a : A)
| Throw (e : AssertionError).

Arguments Normal {A} a.
Arguments Throw {A} e.

(** Computations that read and write the runner and may throw. *)
Definition M (A : Type) : Type := runner -> completion A * runner.

Definition ret {A : Type} (a : A) : M A := fun r => (Normal a, r).

Definition throw {A : Type} (e : AssertionError) : M A := fun r => (Throw e, r).

Definition bind {A B : Type} (m : M A) (k : A -> M B) : M B :=
  fun r =>
    match m r with
    | (Normal a, r') => k a r'
    | (Throw e, r') => (Throw e, r')
    end.

Declare Scope js_scope.
Delimit Scope js_scope with js.
Notation "m1 ;; m2" := (bind m1 (fun _ => m2))
  (at level 61, right associativity) : js_scope.
Local Open Scope js_scope.

(** The runner after the computation [m]. *)
Definition exec {A : Type} (m : M A) (r : runner) : runner := snd (m r).

(** The runner reads a configuration record and keeps it.  How the runner
    itself resolves a record is not part of the sources; here the record is
    kept as it is exported. *)
Definition loadConfig (c : value) : M unit :=
  fun r => (Normal tt,
            mkRunner c (projectConfig r) (suites r) (reports r)).

Definition loadProjectConfig (c : value) : M unit :=
  fun r => (Normal tt,
            mkRunner (config r) c (suites r) (reports r)).

(** Startup: both configuration modules are evaluated and their default
    exports read. *)
Definition startup (h : host) : M unit :=
  loadConfig (RootConfig.default h) ;;
  loadProjectConfig (ProjectConfig.default h).

(** The runner before anything was read. *)
Definition fresh : runner :=
  mkRunner (object_literal []) (object_literal []) [] [].

(** [expect(actual).toBe(expected)] on numbers that hold integers: it
    returns when the two are the same number and throws otherwise.  This is
    the assertion as far as integers can tell: it is exact when the computed
    number is a safe integer and not the negative zero, which no integer
    stands for; [expect_toBe_double] below is the assertion on the numbers
    themselves. *)
Definition expect_toBe (actual expected : Z) : M unit :=
  if Z.eqb actual expected then ret tt
  else throw (NotTheSame actual expected).

(** [test(name, fn)]: [fn] is run; the test passes when [fn] returns and
    fails when it throws.  Either way a line is added to the report and the
    run goes on.  (The runner first collects the tests of a file and runs
    them afterwards, in the order of collection; the two passes are taken
    as one here, which agrees with the runner where the function of a test
    calls neither [test] nor [describe], as in the file.) *)
Definition test (name : string) (fn : M unit) : M unit :=
  fun r =>
    let (c, r') := fn r in
    let o := match c with
             | Normal _ => Passed
             | Throw e => Failed e
             end in
    (Normal tt,
     mkRunner (config r') (projectConfig r') (suites r')
              (reports r' ++ [mkReport (suites r') name o])).

(** [describe(name, fn)]: [fn] is run with the block [name] open. *)
Definition describe (name : string) (fn : M unit) : M unit :=
  fun r =>
    let (c, r') :=
      fn (mkRunner (config r) (projectConfig r) (suites r ++ [name]) (reports r)) in
    (c, mkRunner (config r') (projectConfig r') (suites r) (reports r')).

(** ** sum.test.ts *)

Module SumTest.

Section WithSum.

(** The function imported from [./sum]. *)
Variable sum : Z -> Z -> Z.

Definition file : M unit :=
  describe "sum function" (
    test "adds 1 + 2 to equal 3" (
      expect_toBe (sum 1 2) 3
    ) ;;
    test "adds -1 + -1 to equal -2" (
      expect_toBe (sum (-1) (-1)) (-2)
    ) ;;
    test "adds 0 + 0 to equal 0" (
      expect_toBe (sum 0 0) 0
    )
  ).

End WithSum.

(** The three tests as data: name, the two arguments, the expected value. *)
Record fixture : Type := mkFixture {
  name : string;
  a : Z;
  b : Z;
  expected : Z
}.

Definition fixtures : list fixture := [
  mkFixture "adds 1 + 2 to equal 3" 1 2 3;
  mkFixture "adds -1 + -1 to equal -2" (-1) (-1) (-2);
  mkFixture "adds 0 + 0 to equal 0" 0 0 0
].

End SumTest.

(** ** ./sum *)

Module Sum.

(** Modelled from the spec: the module [./sum] that the test imports is not
    among the sources.  The specification calls [sum] a two-argument addition
    function that returns the arithmetic sum of its integer inputs. *)
Definition sum (a b : Z) : Z := a + b.

End Sum.

(** ** Safe integers *)

(** [Number.MAX_SAFE_INTEGER]: up to this magnitude every integer is a
    JavaScript number and addition is exact. *)
Definition MAX_SAFE_INTEGER : Z := 2 ^ 53 - 1.

(** [Number.isSafeInteger] on integers. *)
Definition isSafeInteger (n : Z) : bool :=
  (- MAX_SAFE_INTEGER <=? n) && (n <=? MAX_SAFE_INTEGER).

(** ** Reports *)

(** What a test of the file reports, given the number it computed. *)
Definition verdict (actual expected : Z) : outcome :=
  if Z.eqb actual expected then Passed
  else Failed (NotTheSame actual expected).

(** The first line of a report that is about the test [name]. *)
Fixpoint outcome_of (name : string) (rs : list report) : option outcome :=
  match rs with
  | [] => None
  | r :: rest =>
      if String.eqb name (title r) then Some (result r)
      else outcome_of name rest
  end.

(** A run of the test file: startup, then the file. *)
Definition run (sum : Z -> Z -> Z) (h : host) : runner :=
  exec (startup h ;; SumTest.file sum) fresh.

(** ** Numbers *)

(** The numbers of JavaScript are the binary64 floats. *)
Module Number.

(** [x === y] on numbers: the equality of IEEE 754, by which a NaN equals
    nothing, itself included, and the two zeros equal each other. *)
Definition strict_equals (x y : float) : bool := PrimFloat.eqb x y.

(** [Object.is(x, y)] on numbers: a NaN is the same value as a NaN, the two
    zeros are not the same value, and any other two numbers are the same
    value when they are equal. *)
Definition Object_is (x y : float) : bool :=
  if PrimFloat.is_nan x then PrimFloat.is_nan y
  else if PrimFloat.is_zero x && PrimFloat.is_zero y
       then Bool.eqb (PrimFloat.get_sign x) (PrimFloat.get_sign y)
       else PrimFloat.eqb x y.

End Number.

(** [expect(actual).toBe(expected)] on numbers: [toBe] compares with
    [Object.is]; it returns when the two are the same value and throws
    otherwise. *)
Definition expect_toBe_double (actual expected : float) : M unit :=
  if Number.Object_is actual expected then ret tt
  else throw (NotSameValue actual expected).

(** What a test of the file reports, given the number it computed. *)
Definition verdict_double (actual expected : float) : outcome :=
  if Number.Object_is actual expected then Passed
  else Failed (NotSameValue actual expected).

(** ** sum.test.ts, on numbers *)

Module SumTestDouble.

Section WithSum.

(** The function imported from [./sum]. *)
Variable sum : float -> float -> float.

Definition file : M unit :=
  describe "sum function" (
    test "adds 1 + 2 to equal 3" (
      expect_toBe_double (sum 1 2) 3
    ) ;;
    test "adds -1 + -1 to equal -2" (
      expect_toBe_double (sum (-1) (-1)) (-2)
    ) ;;
    test "adds 0 + 0 to equal 0" (
      expect_toBe_double (sum 0 0) 0
    )
  ).

End WithSum.

(** The three tests as data: name, the two arguments, the expected value. *)
Record fixture : Type := mkFixture {
  name : string;
  a : float;
  b : float;
  expected : float
}.

Definition fixtures : list fixture := [
  mkFixture "adds 1 + 2 to equal 3" 1 2 3;
  mkFixture "adds -1 + -1 to equal -2" (-1) (-1) (-2);
  mkFixture "adds 0 + 0 to equal 0" 0 0 0
].

End SumTestDouble.

(** [(a, b) => -(0 - a - b)]: a function that returns 3 on (1, 2) and -2 on
    (-1, -1) as addition does, and the negative zero on (0, 0). *)
Definition negated_difference (a b : float) : float := (- (0 - a - b))%float.

(** ** Glob patterns *)

(** The patterns of [includeSource] are globs, matched against paths relative
    to the project: [/] separates segments, [*] stands for any run of
    characters inside a segment, a segment [**] for any run of segments, and
    [{x,y}] for either [x] or [y].  (That [*] skips names with a leading dot
    is left out, so this matcher accepts at least what the runner's does.) *)
Module Glob.

(** [s] up to the first [c], and what follows it. *)
Fixpoint cut (c : ascii) (s : string) : option (string * string) :=
  match s with
  | EmptyString => None
  | String x s' =>
      if Ascii.eqb x c then Some (EmptyString, s')
      else match cut c s' with
           | Some (pre, post) => Some (String x pre, post)
           | None => None
           end
  end.

(** [s.split(c)]. *)
Fixpoint split (c : ascii) (s : string) : list string :=
  match s with
  | EmptyString => [EmptyString]
  | String x s' =>
      if Ascii.eqb x c then EmptyString :: split c s'
      else match split c s' with
           | seg :: rest => String x seg :: rest
           | [] => [String x EmptyString]
           end
  end.

(** [segs.join(c)]. *)
Fixpoint join (c : ascii) (segs : list string) : string :=
  match segs with
  | [] => EmptyString
  | [s] => s
  | s :: rest => s ++ String c (join c rest)
  end.

(** Brace expansion, one group after the other. *)
Fixpoint braces (fuel : nat) (p : string) : list string :=
  match fuel with
  | O => [p]
  | S n =>
      match cut "{" p with
      | None => [p]
      | Some (pre, rest) =>
          match cut "}" rest with
          | None => [p]
          | Some (alts, post) =>
              flat_map
                (fun alt => map (fun tail => pre ++ alt ++ tail) (braces n post))
                (split "," alts)
          end
      end
  end.

Definition expand (p : string) : list string := braces (String.length p) p.

(** A segment of a pattern against a segment of a path. *)
Fixpoint segment (p : string) : string -> bool :=
  match p with
  | EmptyString =>
      fun s => match s with EmptyString => true | String _ _ => false end
  | String c p' =>
      if Ascii.eqb c "*" then
        fix star (s : string) : bool :=
          segment p' s
          || match s with
             | EmptyString => false
             | String _ s' => star s'
             end
      else
        fun s => match s with
                 | EmptyString => false
                 | String x s' => Ascii.eqb c x && segment p' s'
                 end
  end.

(** The segments of a pattern against the segments of a path. *)
Fixpoint segments (ps : list string) : list string -> bool :=
  match ps with
  | [] => fun ss => match ss with [] => true | _ :: _ => false end
  | p :: ps' =>
      if String.eqb p "**" then
        fix globstar (ss : list string) : bool :=
          segments ps' ss
          || match ss with
             | [] => false
             | _ :: ss' => globstar ss'
             end
      else
        fun ss => match ss with
                  | [] => false
                  | s :: ss' => segment p s && segments ps' ss'
                  end
  end.

Definition matches (pattern path : string) : bool :=
  existsb (fun p => segments (split "/" p) (split "/" path)) (expand pattern).

(** A pattern segment without [*]. *)
Fixpoint literal (p : string) : bool :=
  match p with
  | EmptyString => true
  | String c p' => negb (Ascii.eqb c "*") && literal p'
  end.

End Glob.

(** Whether the file at [path] is one that the [includeSource] option of the
    configuration [cfg] names. *)
Definition includesSource (cfg : value) (path : string) : bool :=
  match get_path ["test"; "includeSource"] cfg with
  | Some (VArr patterns) =>
      existsb (fun p => match p with
                        | VStr pattern => Glob.matches pattern path
                        | _ => false
                        end) patterns
  | _ => false
  end.

(** An addition whose exact result is not a safe integer. *)
Definition overflows (x y : Z) : bool := negb (isSafeInteger (x + y)).

(** ** Paths *)

(** The directories of the two configurations are relative paths; they are
    resolved as [path.posix] of Node does. *)
Module Path.

(** The segments of a path, [.] and empty segments dropped and [..] applied;
    [stack] holds the segments so far, the last one first.  Above the start
    of a relative path [..] is kept ([above]), above the root it is
    dropped. *)
Fixpoint resolve (above : bool) (stack segs : list string) : list string :=
  match segs with
  | [] => rev stack
  | s :: rest =>
      if String.eqb s "" || String.eqb s "." then resolve above stack rest
      else if String.eqb s ".." then
        match stack with
        | [] => resolve above (if above then [".."] else []) rest
        | top :: below =>
            if String.eqb top ".."
            then resolve above (if above then ".." :: stack else stack) rest
            else resolve above below rest
        end
      else resolve above (s :: stack) rest
  end.

Definition isAbsolute (p : string) : bool :=
  match p with
  | String c _ => Ascii.eqb c "/"
  | EmptyString => false
  end.

Fixpoint trailingSeparator (p : string) : bool :=
  match p with
  | EmptyString => false
  | String c EmptyString => Ascii.eqb c "/"
  | String _ p' => trailingSeparator p'
  end.

(** [path.posix.normalize]. *)
Definition normalize (p : string) : string :=
  if String.eqb p "" then "."
  else
    let body :=
      Glob.join "/" (resolve (negb (isAbsolute p)) [] (Glob.split "/" p)) in
    if String.eqb body "" then
      if isAbsolute p then "/"
      else if trailingSeparator p then "./" else "."
    else
      let body := if trailingSeparator p then body ++ "/" else body in
      if isAbsolute p then "/" ++ body else body.

(** [path.posix.join] of two paths. *)
Definition join (p q : string) : string :=
  normalize (if String.eqb p "" then q
             else if String.eqb q "" then p
             else p ++ "/" ++ q).

Fixpoint no_slash (s : string) : bool :=
  match s with
  | EmptyString => true
  | String c s' => negb (Ascii.eqb c "/") && no_slash s'
  end.

(** The name of a file or directory: not empty, without [/], and neither
    [.] nor [..]. *)
Definition is_name (s : string) : bool :=
  no_slash s && negb (String.eqb s "") && negb (String.eqb s ".")
  && negb (String.eqb s "..").

End Path.

(** * Properties *)

(** ** The configuration records *)

(** C2: the root configuration holds, under its one key [test], exactly the
    options [projects], [reporters] and [coverage]; [projects] is the list
    with the one path ./my-vue-app, [reporters] the list with the one name
    default, and [coverage] the record of [provider] istanbul, [reporter]
    text and lcov, [all] true and [reportsDirectory] ./test-results, with
    these four keys and no other. *)
Theorem root_config_options (h : host) :
  let cfg := RootConfig.default h in
  keys cfg = ["test"] /\
  option_map keys (get "test" cfg) = Some ["projects"; "reporters"; "coverage"] /\
  get_path ["test"; "projects"] cfg = Some (VArr [VStr "./my-vue-app"]) /\
  get_path ["test"; "reporters"] cfg = Some (VArr [VStr "default"]) /\
  get_path ["test"; "coverage"] cfg =
    Some (VObj [("provider", VStr "istanbul");
                ("reporter", VArr [VStr "text"; VStr "lcov"]);
                ("all", VBool true);
                ("reportsDirectory", VStr "./test-results")]) /\
  option_map keys (get_path ["test"; "coverage"] cfg) =
    Some ["provider"; "reporter"; "all"; "reportsDirectory"] /\
  get_path ["test"; "coverage"; "provider"] cfg = Some (VStr "istanbul") /\
  get_path ["test"; "coverage"; "reporter"] cfg = Some (VArr [VStr "text"; VStr "lcov"]) /\
  get_path ["test"; "coverage"; "all"] cfg = Some (VBool true) /\
  get_path ["test"; "coverage"; "reportsDirectory"] cfg = Some (VStr "./test-results").
Proof.
  cbv zeta. repeat split; reflexivity.
Qed.

(** C5: the sub-project configuration declares the test environment jsdom,
    the vue plugin as its one plugin, and ../test-results/ui as the directory
    of the coverage reports. *)
Theorem project_config_declares (h : host) :
  let cfg := ProjectConfig.default h in
  get_path ["test"; "environment"] cfg = Some (VStr "jsdom") /\
  get "plugins" cfg = Some (VArr [vue []]) /\
  get_path ["test"; "coverage"; "reportsDirectory"] cfg =
    Some (VStr "../test-results/ui").
Proof.
  cbv zeta. repeat split; reflexivity.
Qed.

(** C8: the coverage record of the sub-project configuration has the one key
    [reportsDirectory], with value ../test-results/ui, and no [provider];
    the provider, istanbul, is declared by the root configuration alone. *)
Theorem project_coverage_has_no_provider (h : host) :
  let cfg := ProjectConfig.default h in
  get_path ["test"; "coverage"] cfg =
    Some (VObj [("reportsDirectory", VStr "../test-results/ui")]) /\
  option_map keys (get_path ["test"; "coverage"] cfg) = Some ["reportsDirectory"] /\
  option_map (has "provider") (get_path ["test"; "coverage"] cfg) = Some false /\
  get_path ["test"; "coverage"; "provider"] cfg = None /\
  get_path ["test"; "coverage"; "provider"] (RootConfig.default h) =
    Some (VStr "istanbul").
Proof.
  cbv zeta. repeat split; reflexivity.
Qed.

(** ** The runner *)

Lemma exec_bind {A B : Type} (m : M A) (k : A -> M B) (r : runner) :
  exec (bind m k) r =
  match fst (m r) with
  | Normal a => exec (k a) (exec m r)
  | Throw _ => exec m r
  end.
Proof.
  unfold exec, bind. destruct (m r) as [[x | e] r']; reflexivity.
Qed.

(** ** The test file *)

Lemma reports_of_file (sum : Z -> Z -> Z) (r : runner) :
  reports (exec (SumTest.file sum) r) =
  (reports r ++
   map (fun f => mkReport (suites r ++ ["sum function"]) (SumTest.name f)
                   (verdict (sum (SumTest.a f) (SumTest.b f)) (SumTest.expected f)))
       SumTest.fixtures)%list.
Proof.
  unfold exec, SumTest.file, describe, test, bind, expect_toBe, verdict.
  simpl.
  destruct (sum 1 2 =? 3), (sum (-1) (-1) =? -2), (sum 0 0 =? 0);
    simpl; rewrite <- !app_assoc; reflexivity.
Qed.

Lemma reports_of_run (sum : Z -> Z -> Z) (h : host) :
  reports (run sum h) =
  map (fun f => mkReport ["sum function"] (SumTest.name f)
                  (verdict (sum (SumTest.a f) (SumTest.b f)) (SumTest.expected f)))
      SumTest.fixtures.
Proof.
  unfold run. rewrite exec_bind. simpl fst. cbv iota.
  rewrite reports_of_file. reflexivity.
Qed.

(** ** The addition *)

(** C1: the arguments and expected values of the three tests are (1, 2, 3),
    (-1, -1, -2) and (0, 0, 0), and on each of them [sum] returns the
    expected value, which is the sum of the two integers. *)
Theorem sum_on_fixtures :
  map (fun f => (SumTest.a f, SumTest.b f, SumTest.expected f)) SumTest.fixtures =
    [(1, 2, 3); (-1, -1, -2); (0, 0, 0)] /\
  Forall (fun f =>
            Sum.sum (SumTest.a f) (SumTest.b f) = SumTest.expected f /\
            Sum.sum (SumTest.a f) (SumTest.b f) = SumTest.a f + SumTest.b f)
         SumTest.fixtures /\
  Sum.sum 1 2 = 3 /\ Sum.sum (-1) (-1) = -2 /\ Sum.sum 0 0 = 0.
Proof.
  split; [reflexivity |].
  split; [| repeat split; reflexivity].
  repeat constructor.
Qed.

(** With this [sum], a run reports the three tests as passed. *)
Lemma run_passes (h : host) :
  map result (reports (run Sum.sum h)) = [Passed; Passed; Passed].
Proof.
  rewrite reports_of_run. reflexivity.
Qed.

Lemma isSafeInteger_spec (n : Z) :
  isSafeInteger n = true <-> - MAX_SAFE_INTEGER <= n <= MAX_SAFE_INTEGER.
Proof.
  unfold isSafeInteger. rewrite andb_true_iff, !Z.leb_le. tauto.
Qed.

(** Small integers are safe, and so are their sums. *)
Lemma small_is_safe (n : Z) : Z.abs n <= 3 -> isSafeInteger n = true.
Proof.
  intros Hn. apply isSafeInteger_spec.
  assert (3 < MAX_SAFE_INTEGER) by reflexivity. lia.
Qed.

(** C7: in each of the three tests both arguments, the expected value and
    the exact sum of the arguments are at most 3 in magnitude, far below
    [MAX_SAFE_INTEGER]; all of them are safe integers, and no addition of the
    suite overflows. *)
Theorem fixtures_do_not_overflow :
  Forall (fun f =>
            Z.abs (SumTest.a f) <= 3 /\
            Z.abs (SumTest.b f) <= 3 /\
            Z.abs (SumTest.expected f) <= 3 /\
            Z.abs (SumTest.a f + SumTest.b f) <= 3 /\
            isSafeInteger (SumTest.a f) = true /\
            isSafeInteger (SumTest.b f) = true /\
            isSafeInteger (SumTest.expected f) = true /\
            isSafeInteger (SumTest.a f + SumTest.b f) = true /\
            overflows (SumTest.a f) (SumTest.b f) = false)
         SumTest.fixtures /\
  existsb (fun f => overflows (SumTest.a f) (SumTest.b f)) SumTest.fixtures = false /\
  MAX_SAFE_INTEGER = 9007199254740991.
Proof.
  split; [| split; reflexivity].
  repeat constructor; simpl;
    solve [ lia | reflexivity | apply small_is_safe; simpl; lia ].
Qed.

(** ** The patterns of [includeSource] *)

Section GlobFacts.

Import Glob.

Lemma string_app_assoc (s1 s2 s3 : string) :
  (s1 ++ s2) ++ s3 = s1 ++ (s2 ++ s3).
Proof.
  induction s1 as [| c s1 IH]; simpl; [reflexivity | now rewrite IH].
Qed.

Lemma split_not_nil (c : ascii) (s : string) : split c s <> [].
Proof.
  destruct s as [| x s]; simpl; [discriminate |].
  destruct (Ascii.eqb x c); [discriminate |].
  destruct (split c s); discriminate.
Qed.

(** Splitting loses nothing: joining the segments gives the path back. *)
Lemma join_split (c : ascii) (s : string) : join c (split c s) = s.
Proof.
  induction s as [| x s IH]; simpl; [reflexivity |].
  destruct (Ascii.eqb_spec x c) as [-> | Hne].
  - destruct (split c s) as [| seg rest] eqn:E.
    + now apply split_not_nil in E.
    + change (join c ("" :: seg :: rest)) with (String c (join c (seg :: rest))).
      now rewrite IH.
  - destruct (split c s) as [| seg rest] eqn:E.
    + now apply split_not_nil in E.
    + destruct rest as [| seg' rest].
      * simpl in *. now rewrite IH.
      * change (join c (String x seg :: seg' :: rest))
          with (String x (seg ++ String c (join c (seg' :: rest)))).
        change (join c (seg :: seg' :: rest))
          with (seg ++ String c (join c (seg' :: rest))) in IH.
        now rewrite IH.
Qed.

Lemma join_cons (c : ascii) (s : string) (rest : list string) :
  rest <> [] -> join c (s :: rest) = s ++ String c (join c rest).
Proof.
  destruct rest; [contradiction | reflexivity].
Qed.

(** The last segment is the end of the joined path. *)
Lemma join_last (c : ascii) (init : list string) (last : string) :
  exists pre, join c (init ++ [last]) = pre ++ last.
Proof.
  induction init as [| s init [pre IH]].
  - exists "". reflexivity.
  - exists (s ++ String c pre).
    change ((s :: init) ++ [last])%list with (s :: (init ++ [last]))%list.
    rewrite join_cons by (destruct init; discriminate).
    rewrite IH, string_app_assoc. reflexivity.
Qed.

Lemma segment_star (p s : string) :
  segment (String "*" p) s =
  segment p s || match s with
                 | EmptyString => false
                 | String _ s' => segment (String "*" p) s'
                 end.
Proof.
  destruct s; reflexivity.
Qed.

(** A pattern segment without [*] matches itself only. *)
Lemma segment_literal (p : string) :
  literal p = true -> forall s, segment p s = true -> s = p.
Proof.
  induction p as [| c p IH]; simpl; intros Hlit s Hs.
  - destruct s; [reflexivity | discriminate].
  - apply andb_true_iff in Hlit as [Hc Hlit].
    apply negb_true_iff in Hc. rewrite Hc in Hs.
    destruct s as [| x s]; [discriminate |].
    apply andb_true_iff in Hs as [Hx Hs].
    apply Ascii.eqb_eq in Hx. subst x. f_equal. now apply IH.
Qed.

(** [*] followed by a literal matches the names that end in the literal. *)
Lemma segment_star_suffix (p : string) :
  literal p = true ->
  forall s, segment (String "*" p) s = true -> exists stem, s = stem ++ p.
Proof.
  intros Hlit s. induction s as [| x s IH]; rewrite segment_star; intros Hs.
  - apply orb_true_iff in Hs as [Hs | Hs]; [| discriminate].
    exists "". simpl. now apply segment_literal.
  - apply orb_true_iff in Hs as [Hs | Hs].
    + exists "". simpl. now apply segment_literal.
    + destruct (IH Hs) as [stem ->]. exists (String x stem). reflexivity.
Qed.

Lemma segments_globstar (ps ss : list string) :
  segments ("**" :: ps) ss =
  segments ps ss || match ss with
                    | [] => false
                    | _ :: ss' => segments ("**" :: ps) ss'
                    end.
Proof.
  destruct ss; reflexivity.
Qed.

Lemma segments_cons (p : string) (ps : list string) (ss : list string) :
  String.eqb p "**" = false ->
  segments (p :: ps) ss =
  match ss with
  | [] => false
  | s :: ss' => segment p s && segments ps ss'
  end.
Proof.
  intros Hp. simpl. rewrite Hp. reflexivity.
Qed.

(** [**] followed by one more pattern segment: the path has a last segment,
    and that one matches. *)
Lemma segments_globstar_last (p : string) (ss : list string) :
  String.eqb p "**" = false ->
  segments ["**"; p] ss = true ->
  exists init last, ss = (init ++ [last])%list /\ segment p last = true.
Proof.
  intros Hp. induction ss as [| s ss IH]; rewrite segments_globstar; intros H.
  - rewrite segments_cons in H by exact Hp. discriminate.
  - apply orb_true_iff in H as [H | H].
    + rewrite segments_cons in H by exact Hp.
      apply andb_true_iff in H as [Hs Hrest].
      destruct ss; [| discriminate].
      exists [], s. split; [reflexivity | exact Hs].
    + destruct (IH H) as (init & last & -> & Hlast).
      exists (s :: init), last. split; [reflexivity | exact Hlast].
Qed.

Lemma star_literal_not_globstar (ext : string) :
  literal ext = true -> String.eqb (String "*" ext) "**" = false.
Proof.
  intros Hlit. apply String.eqb_neq. intros Heq.
  injection Heq as ->. discriminate.
Qed.

(** The paths that [src/**/*ext] matches begin with [src/] and end in
    [ext]. *)
Lemma src_globstar_ext (ext path : string) :
  literal ext = true ->
  segments ["src"; "**"; String "*" ext] (split "/" path) = true ->
  (exists rest, path = "src/" ++ rest) /\ (exists stem, path = stem ++ ext).
Proof.
  intros Hlit H.
  rewrite segments_cons in H by reflexivity.
  destruct (split "/" path) as [| s ss] eqn:E; [discriminate |].
  apply andb_true_iff in H as [Hsrc H].
  apply segment_literal in Hsrc; [| reflexivity]. subst s.
  apply segments_globstar_last in H; [| now apply star_literal_not_globstar].
  destruct H as (init & last & -> & Hlast).
  apply segment_star_suffix in Hlast; [| exact Hlit].
  destruct Hlast as [stem ->].
  assert (Hpath : path = join "/" ("src" :: init ++ [stem ++ ext]))
    by (rewrite <- E; symmetry; apply join_split).
  rewrite join_cons in Hpath by (destruct init; discriminate).
  destruct (join_last "/" init (stem ++ ext)) as [pre Hpre].
  rewrite Hpre in Hpath. split.
  - exists (pre ++ stem ++ ext). exact Hpath.
  - exists ("src/" ++ pre ++ stem). rewrite Hpath.
    simpl. now rewrite !string_app_assoc.
Qed.

End GlobFacts.

(** What [includeSource] of the sub-project configuration names, pattern
    by pattern. *)
Lemma includesSource_project (h : host) (path : string) :
  includesSource (ProjectConfig.default h) path = true ->
  exists ext,
    In ext [".js"; ".ts"; ".vue"] /\
    Glob.segments ["src"; "**"; String "*" ext] (Glob.split "/" path) = true.
Proof.
  unfold includesSource.
  change (get_path ["test"; "includeSource"] (ProjectConfig.default h))
    with (Some (VArr [VStr "src/**/*.{js,ts,vue}"])).
  unfold existsb, Glob.matches.
  change (Glob.expand "src/**/*.{js,ts,vue}")
    with ["src/**/*.js"; "src/**/*.ts"; "src/**/*.vue"].
  unfold existsb.
  change (Glob.split "/" "src/**/*.js") with ["src"; "**"; "*.js"].
  change (Glob.split "/" "src/**/*.ts") with ["src"; "**"; "*.ts"].
  change (Glob.split "/" "src/**/*.vue") with ["src"; "**"; "*.vue"].
  rewrite !orb_false_r. intros H.
  apply orb_true_iff in H as [H | H]; [| apply orb_true_iff in H as [H | H]].
  - exists ".js". simpl. auto.
  - exists ".ts". simpl. auto.
  - exists ".vue". simpl. auto.
Qed.

(** The matcher does name files: a component and a module under src/ are
    included, a style sheet and a file outside src/ are not. *)
Lemma includesSource_examples (h : host) :
  map (includesSource (ProjectConfig.default h))
      ["src/components/Button.vue"; "src/sum.ts"; "src/main.js";
       "src/style.css"; "lib/sum.ts"; "sum.ts"] =
  [true; true; true; false; false; false].
Proof.
  reflexivity.
Qed.

(** C10: the sub-project configuration sets [globals] to true and
    [includeSource] to the one pattern src/**/*.{js,ts,vue}; the pattern
    stands for the three patterns with .js, .ts and .vue, and every path it
    names begins with src/ and ends in .js, .ts or .vue. *)
Theorem project_config_in_source_scope (h : host) :
  let cfg := ProjectConfig.default h in
  get_path ["test"; "globals"] cfg = Some (VBool true) /\
  get_path ["test"; "includeSource"] cfg = Some (VArr [VStr "src/**/*.{js,ts,vue}"]) /\
  Glob.expand "src/**/*.{js,ts,vue}" = ["src/**/*.js"; "src/**/*.ts"; "src/**/*.vue"] /\
  forall path : string,
    includesSource cfg path = true ->
    (exists rest, path = "src/" ++ rest) /\
    (exists stem, path = stem ++ ".js" \/ path = stem ++ ".ts" \/ path = stem ++ ".vue").
Proof.
  cbv zeta. split; [reflexivity |]. split; [reflexivity |]. split; [reflexivity |].
  intros path H.
  apply includesSource_project in H as (ext & Hext & H).
  apply src_globstar_ext in H.
  - destruct H as [Hsrc [stem Hstem]]. split; [exact Hsrc |].
    exists stem. simpl in Hext.
    destruct Hext as [<- | [<- | [<- | []]]]; tauto.
  - simpl in Hext. destruct Hext as [<- | [<- | [<- | []]]]; reflexivity.
Qed.

(** * Further properties *)

(** ** Runs of the test file *)



(** X3: the three tests do not single out addition: the function that adds
    the cube of its first argument to the second passes all of them, and
    differs from addition on (2, 0). *)
Theorem run_passes_without_addition (h : host) :
  map result (reports (run (fun x y => x ^ 3 + y) h)) = [Passed; Passed; Passed] /\
  2 ^ 3 + 0 <> Sum.sum 2 0.
Proof.
  split.
  - rewrite reports_of_run. reflexivity.
  - discriminate.
Qed.

(** ** Splitting paths *)

Lemma split_app_slash (s rest : string) :
  Path.no_slash s = true ->
  Glob.split "/" (s ++ String "/" rest) = s :: Glob.split "/" rest.
Proof.
  intros Hs. induction s as [| c s IH]; [reflexivity |].
  simpl in Hs. apply andb_true_iff in Hs as [Hc Hs].
  apply negb_true_iff in Hc.
  change (String c s ++ String "/" rest) with (String c (s ++ String "/" rest)).
  cbn [Glob.split]. rewrite Hc, (IH Hs). reflexivity.
Qed.

(** ** Where the coverage reports go *)

Lemma name_is_kept (d : string) :
  Path.is_name d = true ->
  Path.no_slash d = true /\
  String.eqb d "" = false /\ String.eqb d "." = false /\ String.eqb d ".." = false.
Proof.
  unfold Path.is_name. rewrite !andb_true_iff, !negb_true_iff. tauto.
Qed.

Lemma resolve_skip (above : bool) (stack rest : list string) :
  Path.resolve above stack ("." :: rest) = Path.resolve above stack rest.
Proof. reflexivity. Qed.

Lemma resolve_push (above : bool) (stack rest : list string) (s : string) :
  Path.is_name s = true ->
  Path.resolve above stack (s :: rest) = Path.resolve above (s :: stack) rest.
Proof.
  intros Hs. destruct (name_is_kept s Hs) as (_ & H1 & H2 & H3).
  cbn [Path.resolve]. rewrite H1, H2, H3. reflexivity.
Qed.

Lemma resolve_pop (above : bool) (below rest : list string) (top : string) :
  Path.is_name top = true ->
  Path.resolve above (top :: below) (".." :: rest) = Path.resolve above below rest.
Proof.
  intros Hs. destruct (name_is_kept top Hs) as (_ & _ & _ & H3).
  cbn [Path.resolve].
  change (String.eqb ".." "" || String.eqb ".." ".") with false.
  change (String.eqb ".." "..") with true. cbv iota.
  rewrite H3. reflexivity.
Qed.

Lemma trailingSeparator_app (s t : string) :
  t <> "" -> Path.trailingSeparator (s ++ t) = Path.trailingSeparator t.
Proof.
  intros Ht. induction s as [| c s IH]; [reflexivity |].
  change (String c s ++ t) with (String c (s ++ t)).
  cbn [Path.trailingSeparator].
  destruct (s ++ t) eqn:E; [| exact IH].
  destruct s; [contradiction | discriminate].
Qed.

(** A directory [./d] left through [..]: the directory cancels, whatever its
    name. *)
Lemma join_leaves_directory (d : string) :
  Path.is_name d = true ->
  Path.join ("./" ++ d) "../test-results/ui" = "test-results/ui".
Proof.
  intros Hd.
  destruct (name_is_kept d Hd) as (Hd1 & _).
  unfold Path.join.
  change (String.eqb ("./" ++ d) "") with false.
  change (String.eqb "../test-results/ui" "") with false.
  cbv iota. unfold Path.normalize.
  change (String.eqb (("./" ++ d) ++ "/" ++ "../test-results/ui") "") with false.
  change (Path.isAbsolute (("./" ++ d) ++ "/" ++ "../test-results/ui")) with false.
  cbv iota.
  rewrite trailingSeparator_app by discriminate.
  change (Path.trailingSeparator ("/" ++ "../test-results/ui")) with false.
  change (("./" ++ d) ++ "/" ++ "../test-results/ui")
    with ("." ++ String "/" (d ++ String "/" "../test-results/ui")).
  rewrite !split_app_slash by (assumption || reflexivity).
  change (Glob.split "/" "../test-results/ui") with [".."; "test-results"; "ui"].
  change (negb false) with true.
  rewrite resolve_skip, resolve_push, resolve_pop by exact Hd.
  reflexivity.
Qed.

(** X5: read from a project directory [./d] one level below the root,
    whatever its name, the [reportsDirectory] of the sub-project
    configuration is the directory ui inside the [reportsDirectory] of the
    root configuration. *)
Theorem project_reports_below_root_reports (h : host) (d : string) :
  Path.is_name d = true ->
  exists sub top,
    get_path ["test"; "coverage"; "reportsDirectory"] (ProjectConfig.default h) =
      Some (VStr sub) /\
    get_path ["test"; "coverage"; "reportsDirectory"] (RootConfig.default h) =
      Some (VStr top) /\
    Path.join ("./" ++ d) sub = Path.join "." top ++ "/ui".
Proof.
  intros Hd. exists "../test-results/ui", "./test-results".
  split; [reflexivity |]. split; [reflexivity |].
  rewrite join_leaves_directory by exact Hd. reflexivity.
Qed.

(** The project that the root configuration lists is such a directory. *)
Lemma project_reports_below_root_reports_witness :
  Path.is_name "my-vue-app" = true /\
  get_path ["test"; "projects"] (RootConfig.default (mkHost "/repo" [])) =
    Some (VArr [VStr ("./" ++ "my-vue-app")]) /\
  exists sub top,
    get_path ["test"; "coverage"; "reportsDirectory"]
      (ProjectConfig.default (mkHost "/repo" [])) = Some (VStr sub) /\
    get_path ["test"; "coverage"; "reportsDirectory"]
      (RootConfig.default (mkHost "/repo" [])) = Some (VStr top) /\
    Path.join ("./" ++ "my-vue-app") sub = Path.join "." top ++ "/ui".
Proof.
  split; [reflexivity |]. split; [reflexivity |].
  apply (project_reports_below_root_reports (mkHost "/repo" []) "my-vue-app").
  reflexivity.
Defined.

(** ** Sameness of numbers *)

Section SameValue.

Import Number.

Lemma Prim2SF_nan (x : float) : is_nan x = true -> Prim2SF x = S754_nan.
Proof.
  intros H. unfold Prim2SF. rewrite H. reflexivity.
Qed.

Lemma Prim2SF_zero (x : float) :
  is_nan x = false -> is_zero x = true -> Prim2SF x = S754_zero (get_sign x).
Proof.
  intros H1 H2. unfold Prim2SF. rewrite H1, H2. reflexivity.
Qed.

Lemma Prim2SF_inj (x y : float) : Prim2SF x = Prim2SF y -> x = y.
Proof.
  intros H.
  rewrite <- (SF2Prim_Prim2SF x), <- (SF2Prim_Prim2SF y), H. reflexivity.
Qed.

(** A NaN is [===] to nothing. *)
Lemma strict_equals_nan (x y : float) :
  is_nan x = true -> strict_equals x y = false.
Proof.
  intros H. unfold strict_equals.
  rewrite FloatAxioms.eqb_spec, (Prim2SF_nan x H). reflexivity.
Qed.

Lemma is_zero_spec (x : float) :
  is_zero x = match Prim2SF x with S754_zero _ => true | _ => false end.
Proof.
  unfold is_zero. rewrite FloatAxioms.eqb_spec.
  change (Prim2SF PrimFloat.zero) with (S754_zero false).
  destruct (Prim2SF x) as [s | s | | s m e]; try reflexivity;
    destruct s; reflexivity.
Qed.

(** Numbers that are [===] are the same, or both are zeros. *)
Lemma SFeqb_true (x y : spec_float) :
  SFeqb x y = true ->
  x = y \/ (exists s1 s2, x = S754_zero s1 /\ y = S754_zero s2).
Proof.
  unfold SFeqb, SFcompare.
  destruct x as [s1 | s1 | | s1 m1 e1], y as [s2 | s2 | | s2 m2 e2];
    try discriminate;
    try (destruct s1; discriminate); try (destruct s2; discriminate).
  - intros _. right. eauto.
  - destruct s1, s2; try discriminate; intros _; left; reflexivity.
  - destruct s1, s2; try discriminate;
      destruct (Z.compare_spec e1 e2) as [-> | |]; try discriminate;
      rewrite Pos.compare_cont_spec; simpl;
      destruct (Pos.compare_spec m1 m2) as [-> | |]; try discriminate;
      intros _; left; reflexivity.
Qed.

(** [Object.is] decides the equality of numbers as values: the one by which
    the negative zero is not the positive zero and NaN is NaN. *)
Lemma Object_is_spec (x y : float) : Object_is x y = true <-> x = y.
Proof.
  split.
  - unfold Object_is. destruct (is_nan x) eqn:Hx.
    + intros Hy. apply Prim2SF_inj. now rewrite !Prim2SF_nan.
    + destruct (is_zero x && is_zero y) eqn:Hz.
      * apply andb_true_iff in Hz as [Hzx Hzy]. intros Hs.
        apply Bool.eqb_prop in Hs. apply Prim2SF_inj.
        assert (Hy : is_nan y = false).
        { destruct (is_nan y) eqn:E; [| reflexivity].
          rewrite is_zero_spec, (Prim2SF_nan y E) in Hzy. discriminate. }
        now rewrite !Prim2SF_zero, Hs.
      * intros He. rewrite FloatAxioms.eqb_spec in He.
        apply SFeqb_true in He.
        destruct He as [He | (s1 & s2 & H1 & H2)].
        -- now apply Prim2SF_inj.
        -- rewrite !is_zero_spec, H1, H2 in Hz. discriminate.
  - intros <-. unfold Object_is. destruct (is_nan x) eqn:Hx; [reflexivity |].
    destruct (is_zero x); simpl.
    + apply Bool.eqb_reflx.
    + unfold is_nan in Hx. now apply negb_false_iff in Hx.
Qed.

Lemma Object_is_false (x y : float) : Object_is x y = false <-> x <> y.
Proof.
  rewrite <- Object_is_spec. destruct (Object_is x y); split;
    intros H; try reflexivity; try discriminate; try congruence.
Qed.

(** Against a number that is neither a zero nor NaN, [Object.is] is
    [===]. *)
Lemma Object_is_nonzero (x e : float) :
  is_nan e = false -> is_zero e = false -> Object_is x e = strict_equals x e.
Proof.
  intros Hn Hz. unfold Object_is. destruct (is_nan x) eqn:Hx.
  - rewrite Hn. symmetry. now apply strict_equals_nan.
  - rewrite Hz, andb_false_r. reflexivity.
Qed.

(** Against the positive zero, [Object.is] is [===] without the negative
    zero. *)
Lemma Object_is_zero (x : float) :
  Object_is x 0 = strict_equals x 0 && negb (get_sign x).
Proof.
  unfold Object_is. destruct (is_nan x) eqn:Hx.
  - rewrite (strict_equals_nan x 0 Hx). reflexivity.
  - change (is_zero 0) with true. change (get_sign 0) with false.
    rewrite andb_true_r. unfold strict_equals.
    change (PrimFloat.eqb x 0) with (is_zero x).
    destruct (is_zero x); [| reflexivity].
    destruct (get_sign x); reflexivity.
Qed.

(** Sameness in terms of [===], for an expected value that is a number
    other than the negative zero. *)
Lemma same_value_numeric (x e : float) :
  is_nan e = false -> (is_zero e = true -> e = 0%float) ->
  (x = e <->
   strict_equals x e = true /\ (is_zero e = true -> get_sign x = false)).
Proof.
  intros Hn Hz. rewrite <- Object_is_spec.
  destruct (is_zero e) eqn:E.
  - rewrite (Hz eq_refl), Object_is_zero, andb_true_iff, negb_true_iff.
    intuition.
  - rewrite (Object_is_nonzero x e Hn E). intuition. discriminate.
Qed.

End SameValue.

(** ** The test file, on numbers *)

Lemma reports_of_file_double (sum : float -> float -> float) (r : runner) :
  reports (exec (SumTestDouble.file sum) r) =
  (reports r ++
   map (fun f => mkReport (suites r ++ ["sum function"]) (SumTestDouble.name f)
                   (verdict_double (sum (SumTestDouble.a f) (SumTestDouble.b f))
                                   (SumTestDouble.expected f)))
       SumTestDouble.fixtures)%list.
Proof.
  unfold exec, SumTestDouble.file, describe, test, bind, expect_toBe_double,
    verdict_double.
  simpl.
  destruct (Number.Object_is (sum 1 2) 3)%float,
    (Number.Object_is (sum (-1) (-1)) (-2))%float,
    (Number.Object_is (sum 0 0) 0)%float;
    simpl; rewrite <- !app_assoc; reflexivity.
Qed.

Lemma outcome_of_fixture_double
    (sum : float -> float -> float) (f : SumTestDouble.fixture) :
  In f SumTestDouble.fixtures ->
  outcome_of (SumTestDouble.name f)
    (reports (exec (SumTestDouble.file sum) fresh)) =
  Some (verdict_double (sum (SumTestDouble.a f) (SumTestDouble.b f))
                       (SumTestDouble.expected f)).
Proof.
  intros Hin. rewrite reports_of_file_double.
  simpl in Hin.
  destruct Hin as [<- | [<- | [<- | []]]]; reflexivity.
Qed.

Lemma expect_toBe_double_result (actual expected : float) (r : runner) :
  fst (expect_toBe_double actual expected r) =
  if Number.Object_is actual expected then Normal tt
  else Throw (NotSameValue actual expected).
Proof.
  unfold expect_toBe_double.
  destruct (Number.Object_is actual expected); reflexivity.
Qed.

(** The expected values of the tests are numbers, and none is the negative
    zero. *)
Lemma expected_is_plain (f : SumTestDouble.fixture) :
  In f SumTestDouble.fixtures ->
  is_nan (SumTestDouble.expected f) = false /\
  (is_zero (SumTestDouble.expected f) = true -> SumTestDouble.expected f = 0%float).
Proof.
  simpl. intros [<- | [<- | [<- | []]]]; simpl; split;
    try reflexivity; try discriminate.
Qed.

(** With [a + b] for [sum], every test passes. *)
Lemma addition_passes :
  map result (reports (exec (SumTestDouble.file PrimFloat.add) fresh)) =
  [Passed; Passed; Passed].
Proof.
  reflexivity.
Qed.

(** C4, as the code has it: for each of the three tests, whatever function
    is imported as [sum], the assertion throws, and the run reports the test
    as failed, exactly when [sum a b] is not the same value as the expected
    number; when it is the same value the assertion returns and the test is
    reported as passed.  Equality of floats is this sameness of values
    ([Object_is_spec]).  To be the same value as the expected number is to
    be equal to it by [===] and, where zero is expected, not to be the
    negative zero. *)
Theorem assertion_fails_iff_not_same_value
    (sum : float -> float -> float) (r : runner) (f : SumTestDouble.fixture) :
  In f SumTestDouble.fixtures ->
  let actual := sum (SumTestDouble.a f) (SumTestDouble.b f) in
  let e := SumTestDouble.expected f in
  let o := outcome_of (SumTestDouble.name f)
             (reports (exec (SumTestDouble.file sum) fresh)) in
  (fst (expect_toBe_double actual e r) = Throw (NotSameValue actual e)
   <-> actual <> e) /\
  (fst (expect_toBe_double actual e r) = Normal tt <-> actual = e) /\
  (option_map is_failure o = Some true <-> actual <> e) /\
  (o = Some Passed <-> actual = e) /\
  (actual = e <->
   Number.strict_equals actual e = true /\
   (is_zero e = true -> get_sign actual = false)).
Proof.
  intros Hin actual e o.
  assert (Ho : o = Some (verdict_double actual e))
    by (apply outcome_of_fixture_double; exact Hin).
  destruct (expected_is_plain f Hin) as [Hn Hz].
  split; [| split; [| split; [| split]]].
  - rewrite expect_toBe_double_result, <- Object_is_false.
    destruct (Number.Object_is actual e); split; intros H;
      try reflexivity; try discriminate.
  - rewrite expect_toBe_double_result, <- Object_is_spec.
    destruct (Number.Object_is actual e); split; intros H;
      try reflexivity; try discriminate.
  - rewrite Ho, <- Object_is_false. unfold verdict_double.
    destruct (Number.Object_is actual e); simpl; split; intros H;
      try reflexivity; try discriminate.
  - rewrite Ho, <- Object_is_spec. unfold verdict_double.
    destruct (Number.Object_is actual e); simpl; split; intros H;
      try reflexivity; try discriminate.
  - apply same_value_numeric; assumption.
Qed.

(** With [a + b] for [sum], the first test passes. *)
Lemma assertion_fails_iff_not_same_value_witness :
  In (SumTestDouble.mkFixture "adds 1 + 2 to equal 3" 1 2 3)
     SumTestDouble.fixtures /\
  outcome_of "adds 1 + 2 to equal 3"
    (reports (exec (SumTestDouble.file PrimFloat.add) fresh)) = Some Passed.
Proof.
  split.
  - simpl. left. reflexivity.
  - apply (assertion_fails_iff_not_same_value PrimFloat.add fresh
             (SumTestDouble.mkFixture "adds 1 + 2 to equal 3" 1 2 3)).
    + simpl. left. reflexivity.
    + reflexivity.
Defined.

(** C4, as the claim has it, fails where the computed number is the negative
    zero: [negated_difference] returns on (0, 0) a number that is equal to
    the expected 0, the assertion throws all the same, and the test is
    reported as failed. *)
Lemma assertion_fails_on_equal_numbers :
  negated_difference 0 0 = (-0)%float /\
  Number.strict_equals (negated_difference 0 0) 0 = true /\
  fst (expect_toBe_double (negated_difference 0 0) 0 fresh) =
    Throw (NotSameValue (-0) 0) /\
  outcome_of "adds 0 + 0 to equal 0"
    (reports (exec (SumTestDouble.file negated_difference) fresh)) =
    Some (Failed (NotSameValue (-0) 0)).
Proof.
  repeat split; reflexivity.
Qed.

(** X2: a run reports no failure exactly when the imported [sum] returns
    the numbers 3 on (1, 2), -2 on (-1, -1) and 0, the positive zero, on
    (0, 0). *)
Theorem run_passes_iff_same_values (sum : float -> float -> float) :
  forallb (fun l => negb (is_failure (result l)))
          (reports (exec (SumTestDouble.file sum) fresh)) = true <->
  sum 1%float 2%float = 3%float /\
  sum (-1)%float (-1)%float = (-2)%float /\
  sum 0%float 0%float = 0%float.
Proof.
  rewrite reports_of_file_double, <- !Object_is_spec.
  unfold verdict_double. simpl.
  destruct (Number.Object_is (sum 1 2) 3)%float,
    (Number.Object_is (sum (-1) (-1)) (-2))%float,
    (Number.Object_is (sum 0 0) 0)%float;
    simpl; split; intros H; try discriminate; try reflexivity;
    try tauto; try (repeat split; reflexivity).
Qed.
